(** * document-structurer: the PDF -> LLM -> spreadsheet pipeline of [app.py]

    The script glues three libraries together: pypdf reads the text of the
    uploaded PDF, a hosted model returns a list of key/value/comments
    records, and pandas with the XlsxWriter engine renders them.  The
    functions of [app.py] are embedded one by one ([get_pdf_text],
    [process_document], [create_formatted_excel], and the body of the
    Streamlit script as [main]).  The library calls they make are embedded
    next to them, under the library's own names, at the level of detail the
    script depends on:

    - pypdf: an uploaded stream is represented by what [PdfReader] finds in
      it (an unreadable stream, an encrypted document, or a list of pages);
    - pandas: [DataFrame] built from a list of dicts (the columns are the
      keys of the dicts, so an empty list gives a frame without columns),
      and [to_excel] with [index=False] (header cells, body cells, [na_rep]
      for missing values, the sheet size check);
    - XlsxWriter: [write] with its documented dispatch on the token (an
      empty string goes to [write_blank], a string that starts with [=] to
      [write_formula], a link to [write_url], any other to [write_string]),
      the dimension check, the cut of strings at 32767 characters, and
      [set_column];
    - the provider behind [chain.invoke] is a parameter of the run, and
      every request to it is logged;
    - the clock is a parameter of the renderer: XlsxWriter stamps the
      creation time into the document properties of the file. *)

From Stdlib Require Import String Ascii NArith List Lia Bool DecimalString.
From stdpp Require Import base option list strings gmap fin_maps fin_sets.

Open Scope string_scope.
Open Scope N_scope.

(** ** Exceptions *)

(** A Python exception: its class and the text [str(e)] gives. *)
Record Exn := mkExn { exn_class : string; exn_str : string }.

Inductive result (A : Type) : Type :=
  | Ok (a : A)
  | Raise (e : Exn).
Arguments Ok {A} a.
Arguments Raise {A} e.

Definition bind {A B : Type} (c : result A) (k : A -> result B) : result B :=
  match c with
  | Ok a => k a
  | Raise e => Raise e
  end.

Notation "'let?' x ':=' c 'in' k" := (bind c (fun x => k))
  (at level 10, x pattern, c at level 100, k at level 200).

Definition is_ok {A : Type} (c : result A) : bool :=
  match c with Ok _ => true | Raise _ => false end.

Definition result_map {A B : Type} (f : A -> B) (c : result A) : result B :=
  match c with Ok a => Ok (f a) | Raise e => Raise e end.

(** The newline character of Python's ["\n"]. *)
Definition LF_char : ascii := ascii_of_nat 10.
Definition LF : string := String LF_char EmptyString.

(** ** 1. Data schema *)

(** [class DataPoint(BaseModel)]: [key] and [value] are [str], [comments] is
    [Optional[str]]. *)
Record DataPoint := mkDataPoint {
  key : string;
  value : string;
  comments : option string
}.

(** [class ExtractedData(BaseModel)] *)
Record ExtractedData := mkExtractedData { entries : list DataPoint }.

(** ** 2. Helper functions: text extraction *)

Module Pypdf.

(** A page, by what [page.extract_text()] does on it. *)
Inductive Page :=
  | PageText (text : string)
  | PageBroken (e : Exn).

Definition extract_text (page : Page) : result string :=
  match page with
  | PageText text => Ok text
  | PageBroken e => Raise e
  end.

(** The uploaded stream, by what pypdf finds in it. *)
Inductive UploadedFile :=
  | Unreadable (e : Exn)
  | Encrypted
  | Document (pages : list Page).

Definition FileNotDecryptedError : Exn :=
  mkExn "FileNotDecryptedError" "File has not been decrypted".

Definition EmptyFileError : Exn :=
  mkExn "EmptyFileError" "Cannot read an empty file".

Definition PdfReadError (msg : string) : Exn := mkExn "PdfReadError" msg.

Record Reader := mkReader { pages : result (list Page) }.

(** [PdfReader(stream)] raises on a stream it cannot parse; on an encrypted
    document it is the access to [.pages] that raises. *)
Definition PdfReader (stream : UploadedFile) : result Reader :=
  match stream with
  | Unreadable e => Raise e
  | Encrypted => Ok (mkReader (Raise FileNotDecryptedError))
  | Document ps => Ok (mkReader (Ok ps))
  end.

End Pypdf.
Import Pypdf.

(** The loop [for page in pdf_reader.pages: text += page.extract_text() + "\n"]. *)
Fixpoint get_pdf_text_loop (pages : list Page) (text : string) : result string :=
  match pages with
  | [] => Ok text
  | page :: rest =>
      let? t := extract_text page in
      get_pdf_text_loop rest (text +:+ (t +:+ LF))
  end.

Definition get_pdf_text (uploaded_file : UploadedFile) : result string :=
  let text := "" in
  let? pdf_reader := PdfReader uploaded_file in
  let? pages := pages pdf_reader in
  get_pdf_text_loop pages text.

(** The separator-delimited segments of a text: the pieces that end at each
    newline, and what follows the last newline when that is not empty. *)
Fixpoint segments_from (cur : string) (s : string) : list string :=
  match s with
  | EmptyString => match cur with EmptyString => [] | _ => [cur] end
  | String c s' =>
      if Ascii.eqb c LF_char then cur :: segments_from "" s'
      else segments_from (cur +:+ String c "") s'
  end.

Definition segments (s : string) : list string := segments_from "" s.

Fixpoint has_newline (s : string) : bool :=
  match s with
  | EmptyString => false
  | String c s' => Ascii.eqb c LF_char || has_newline s'
  end.

(** Every page's text followed by the separator, in page order. *)
Definition joined (texts : list string) : string :=
  fold_right (fun t acc => t +:+ LF +:+ acc) "" texts.

(** ** The spreadsheet writer *)

Module Xlsxwriter.

(** The properties of a cell format the script and pandas set. *)
Record Format := mkFormat {
  bold : bool;
  text_wrap : bool;
  align : string;
  valign : string;
  fg_color : string;
  font_color : string;
  border : N;
  hyperlink : bool
}.

(** What a cell of the worksheet's table holds.  A formula cell keeps the
    token handed to [write_formula] and the cached result [0] XlsxWriter
    stores with it; a link cell keeps the url handed to [write_url] (the
    text shown for it is derived by XlsxWriter). *)
Inductive CellData :=
  | cell_string (s : string)
  | cell_formula (formula : string) (cached : N)
  | cell_link (url : string)
  | cell_blank.

Record Cell := mkCell { cell_data : CellData; cell_format : option Format }.

Record Worksheet := mkWorksheet {
  table : gmap (N * N) Cell;
  hlink_count : N;
  col_info : gmap N (N * option Format)
}.

Definition empty_worksheet : Worksheet := mkWorksheet ∅ 0 ∅.

Definition xls_rowmax : N := 1048576.
Definition xls_colmax : N := 16384.
Definition xls_strmax : N := 32767.
Definition max_url_length : N := 2079.
Definition max_hlinks : N := 65530.

(** The workbook options pandas leaves at their defaults. *)
Definition strings_to_formulas : bool := true.
Definition strings_to_urls : bool := true.

(** [_check_dimensions]: [true] when the cell is outside the sheet (the
    write methods then return [-1] and store nothing). *)
Definition check_dimensions (row col : N) : bool :=
  (xls_rowmax <=? row) || (xls_colmax <=? col).

Definition store (ws : Worksheet) (row col : N) (c : Cell) : Worksheet :=
  mkWorksheet (<[(row, col) := c]> (table ws)) (hlink_count ws) (col_info ws).

Definition str_len (s : string) : N := N.of_nat (String.length s).

Definition write_string (ws : Worksheet) (row col : N) (s : string)
    (cell_format : option Format) : Worksheet :=
  if check_dimensions row col then ws
  else
    let s := if xls_strmax <? str_len s
             then substring 0 (N.to_nat xls_strmax) s else s in
    store ws row col (mkCell (cell_string s) cell_format).

(** A blank cell is only written when it carries a format. *)
Definition write_blank (ws : Worksheet) (row col : N)
    (cell_format : option Format) : Worksheet :=
  match cell_format with
  | None => ws
  | Some _ =>
      if check_dimensions row col then ws
      else store ws row col (mkCell cell_blank cell_format)
  end.

Definition write_formula (ws : Worksheet) (row col : N) (formula : string)
    (cell_format : option Format) : Worksheet :=
  if check_dimensions row col then ws
  else store ws row col (mkCell (cell_formula formula 0) cell_format).

Definition contains (sub s : string) : bool :=
  match String.index 0 sub s with Some _ => true | None => false end.

Definition split_anchor (url : string) : string * string :=
  match String.index 0 "#" url with
  | Some i => (substring 0 i url,
               substring (S i) (String.length url - S i) url)
  | None => (url, "")
  end.

(** The format of a link that is given none. *)
Definition default_url_format : Format :=
  mkFormat false false "" "" "" "" 0 true.

(** [write_url]: a url or anchor over the length limit, or a link beyond
    the number of links a sheet may hold, is dropped with a warning. *)
Definition write_url (ws : Worksheet) (row col : N) (url : string)
    (cell_format : option Format) : Worksheet :=
  if check_dimensions row col then ws
  else
    let '(url_str, anchor_str) := split_anchor url in
    if (max_url_length <? str_len url_str)
       || (max_url_length <? str_len anchor_str) then ws
    else
      let ws := mkWorksheet (table ws) (hlink_count ws + 1) (col_info ws) in
      if max_hlinks <? hlink_count ws then ws
      else
        let cell_format :=
          match cell_format with
          | None => Some default_url_format
          | Some f => Some f
          end in
        store ws row col (mkCell (cell_link url) cell_format).

Definition starts_with (p s : string) : bool := String.prefix p s.

Definition ends_with (p s : string) : bool :=
  let n := String.length s in
  let k := String.length p in
  (k <=? n)%nat && String.eqb (substring (n - k) k s) p.

(** [re.match("(ftp|http)s?://", token) or re.match("mailto:", token) or
    re.match("(in|ex)ternal:", token)] *)
Definition url_scheme (token : string) : bool :=
  starts_with "ftp://" token || starts_with "ftps://" token
  || starts_with "http://" token || starts_with "https://" token
  || starts_with "mailto:" token
  || starts_with "internal:" token || starts_with "external:" token.

Inductive TokenKind := TBlank | TFormula | TUrl | TString.

(** The order of the tests in [_write_token_as_string]. *)
Definition token_kind (token : string) : TokenKind :=
  if String.eqb token "" then TBlank
  else if strings_to_formulas && starts_with "=" token then TFormula
  else if starts_with "{=" token && ends_with "}" token then TFormula
  else if contains ":" token && strings_to_urls && url_scheme token then TUrl
  else TString.

(** [worksheet.write(row, col, token, cell_format)] for a [str] token. *)
Definition write (ws : Worksheet) (row col : N) (token : string)
    (cell_format : option Format) : Worksheet :=
  match token_kind token with
  | TBlank => write_blank ws row col cell_format
  | TFormula => write_formula ws row col token cell_format
  | TUrl => write_url ws row col token cell_format
  | TString => write_string ws row col token cell_format
  end.

(** Column names to indices: ['A'] is 0, ['Z'] is 25, ['AA'] is 26. *)
Fixpoint col_number (acc : N) (name : string) : N :=
  match name with
  | EmptyString => acc
  | String c rest => col_number (acc * 26 + (N_of_ascii c - 64)) rest
  end.

Definition xl_col (name : string) : N := col_number 0 name - 1.

(** The decorator that turns ['A:A'] into a pair of column indices. *)
Definition convert_column_args (range : string) : N * N :=
  match String.index 0 ":" range with
  | Some i =>
      (xl_col (substring 0 i range),
       xl_col (substring (S i) (String.length range - S i) range))
  | None => (xl_col range, xl_col range)
  end.

Fixpoint set_col_info (ws_cols : gmap N (N * option Format)) (first : N)
    (count : nat) (entry : N * option Format) : gmap N (N * option Format) :=
  match count with
  | O => ws_cols
  | S n => set_col_info (<[first := entry]> ws_cols) (first + 1) n entry
  end.

Definition set_column (ws : Worksheet) (range : string) (width : N)
    (cell_format : option Format) : Worksheet :=
  let '(a, b) := convert_column_args range in
  let first_col := N.min a b in
  let last_col := N.max a b in
  if check_dimensions 0 last_col || check_dimensions 0 first_col then ws
  else
    mkWorksheet (table ws) (hlink_count ws)
      (set_col_info (col_info ws) first_col
         (N.to_nat (last_col - first_col + 1)) (width, cell_format)).

(** The workbook under construction: its sheets, in the order added. *)
Record Workbook := mkWorkbook { worksheets : list (string * Worksheet) }.

Definition get_worksheet_by_name (wb : Workbook) (name : string)
    : option Worksheet :=
  snd <$> List.find (fun p => String.eqb (fst p) name) (worksheets wb).

Definition add_worksheet (wb : Workbook) (name : string) : Workbook :=
  mkWorkbook (worksheets wb ++ [(name, empty_worksheet)]).

Definition set_worksheet (wb : Workbook) (name : string) (ws : Worksheet)
    : Workbook :=
  mkWorkbook
    (map (fun p => if String.eqb (fst p) name then (name, ws) else p)
       (worksheets wb)).

(** The saved file: the sheets, and the creation time that goes into the
    document properties when the workbook is closed. *)
Record XlsxFile := mkXlsxFile {
  file_sheets : list (string * Worksheet);
  file_created : N
}.

Definition close (wb : Workbook) (now : N) : XlsxFile :=
  mkXlsxFile (worksheets wb) now.

End Xlsxwriter.
Import Xlsxwriter.

(** ** The data frame and its Excel export *)

Module Pandas.

(** [item.dict()]: field names to values, in field order; a value is a
    [str] or [None]. *)
Definition dict := list (string * option string).

Definition dict_get (d : dict) (k : string) : option string :=
  match List.find (fun p => String.eqb (fst p) k) d with
  | Some (_, v) => v
  | None => None
  end.

(** A frame of text cells, row by row; [None] is a missing value. *)
Record DataFrame := mkDataFrame {
  columns : list string;
  data : list (list (option string))
}.

Definition add_label (cols : list string) (k : string) : list string :=
  if existsb (String.eqb k) cols then cols else cols ++ [k].

(** [pd.DataFrame(list_of_dicts)]: the columns are the keys of the dicts in
    the order they first appear, and there is one row per dict. *)
Definition DataFrame_of_dicts (dicts : list dict) : DataFrame :=
  let columns :=
    fold_left (fun cols d => fold_left add_label (map fst d) cols) dicts [] in
  mkDataFrame columns (map (fun d => map (dict_get d) columns) dicts).

Definition num_rows (df : DataFrame) : N := N.of_nat (length (data df)).
Definition num_cols (df : DataFrame) : N := N.of_nat (length (columns df)).

(** [df.iloc[:, colidx]] *)
Definition column (df : DataFrame) (colidx : nat) : list (option string) :=
  map (fun row => mjoin (row !! colidx)) (data df).

Record ExcelCell := mkExcelCell {
  row : N;
  col : N;
  val : string;
  style : option Format
}.

(** The style pandas gives header cells. *)
Definition header_style : Format :=
  mkFormat true false "center" "top" "" "" 1 false.

Definition na_rep : string := "".

(** [_format_value]: a missing value is written as [na_rep]. *)
Definition format_value (v : option string) : string :=
  match v with
  | Some s => s
  | None => na_rep
  end.

Definition format_header (df : DataFrame) : list ExcelCell :=
  imap (fun colindex colname =>
          mkExcelCell 0 (N.of_nat colindex) colname (Some header_style))
       (columns df).

(** [_generate_body] after a one-row header, without the index column. *)
Definition format_body (df : DataFrame) : list ExcelCell :=
  let rowcounter := 1 in
  concat
    (map (fun colidx =>
            imap (fun i v =>
                    mkExcelCell (rowcounter + N.of_nat i) (N.of_nat colidx)
                      (format_value v) None)
                 (column df colidx))
         (seq 0 (length (columns df)))).

Definition get_formatted_cells (df : DataFrame) : list ExcelCell :=
  format_header df ++ format_body df.

Definition max_rows : N := 1048576.
Definition max_cols : N := 16384.

Definition decimal (n : N) : string := NilEmpty.string_of_uint (N.to_uint n).

Definition sheet_too_large (df : DataFrame) : Exn :=
  mkExn "ValueError"
    ("This sheet is too large! Your sheet size is: "
     +:+ decimal (num_rows df) +:+ ", " +:+ decimal (num_cols df)
     +:+ " Max sheet size is: " +:+ decimal max_rows +:+ ", "
     +:+ decimal max_cols).

(** [pd.ExcelWriter(output, engine='xlsxwriter')]: a fresh workbook. *)
Definition ExcelWriter : Workbook := mkWorkbook [].

(** The engine's [_write_cells]: the sheet is added when it is not there
    yet, then every cell goes through [write]. *)
Definition write_cells (writer : Workbook) (cells : list ExcelCell)
    (sheet_name : string) : Workbook :=
  let writer :=
    match get_worksheet_by_name writer sheet_name with
    | Some _ => writer
    | None => add_worksheet writer sheet_name
    end in
  match get_worksheet_by_name writer sheet_name with
  | Some wks =>
      set_worksheet writer sheet_name
        (fold_left (fun wks c => write wks (row c) (col c) (val c) (style c))
           cells wks)
  | None => writer
  end.

(** [dataframe.to_excel(writer, index=False, sheet_name=...)] *)
Definition to_excel (df : DataFrame) (writer : Workbook)
    (sheet_name : string) : result Workbook :=
  if (max_rows <? num_rows df) || (max_cols <? num_cols df)
  then Raise (sheet_too_large df)
  else Ok (write_cells writer (get_formatted_cells df) sheet_name).

(** [writer.sheets[name]] *)
Definition sheets (writer : Workbook) (name : string) : result Worksheet :=
  match get_worksheet_by_name writer name with
  | Some ws => Ok ws
  | None => Raise (mkExn "KeyError" ("'" +:+ name +:+ "'"))
  end.

End Pandas.
Import Pandas.

(** ** 2. Helper functions: the renderer *)

Definition header_format : Format :=
  {| bold := true; text_wrap := true; align := ""; valign := "top";
     fg_color := "#4F81BD"; font_color := "white"; border := 1;
     hyperlink := false |}.

Definition body_format : Format :=
  {| bold := false; text_wrap := true; align := ""; valign := "top";
     fg_color := ""; font_color := ""; border := 1; hyperlink := false |}.

(** [for col_num, value in enumerate(dataframe.columns.values):
       worksheet.write(0, col_num, value, header_format)] *)
Definition write_headers (worksheet : Worksheet) (labels : list string)
    : Worksheet :=
  fold_left (fun ws p => write ws 0 (fst p) (snd p) (Some header_format))
    (imap (fun col_num value => (N.of_nat col_num, value)) labels) worksheet.

(** [create_formatted_excel(dataframe)]; [now] is the clock read when the
    writer is closed on leaving the [with] block. *)
Definition create_formatted_excel (now : N) (dataframe : DataFrame)
    : result XlsxFile :=
  let writer := ExcelWriter in
  let? writer := to_excel dataframe writer "Extracted Data" in
  let workbook := writer in
  let? worksheet := sheets writer "Extracted Data" in
  let worksheet := write_headers worksheet (columns dataframe) in
  let worksheet := set_column worksheet "A:A" 30 (Some body_format) in
  let worksheet := set_column worksheet "B:B" 50 (Some body_format) in
  let worksheet := set_column worksheet "C:C" 40 (Some body_format) in
  Ok (close (set_worksheet workbook "Extracted Data" worksheet) now).

(** ** 2. Helper functions: the model call *)

(** One outbound request to the model provider. *)
Record Request := mkRequest {
  req_model : string;
  req_temperature : N;
  req_api_key : string;
  req_messages : list (string * string)
}.

(** The provider: what the structured-output call returns, or raises, for a
    request. *)
Definition Provider := Request -> result ExtractedData.

Definition system_prompt : string := "
    You are a specialized data extraction AI. Your goal is to transform unstructured PDF text into a structured Excel-ready format.
    
    **STRICT ASSIGNMENT RULES:**
    1. **100% Data Capture:** You must capture EVERY piece of information. Do not omit anything.
    2. **Original Language:** Retain the exact wording for the 'Value' field. Do not paraphrase or summarize unless absolutely necessary for format.
    3. **Key:Value Logic:** Identify logical pairings. If a text is a heading followed by a paragraph, the heading is the Key.
    4. **Context:** If there is surrounding text that provides important nuance but isn't the direct value, place it in the 'Comments' field.
    
    Analyze the input text and output a JSON object containing a list of these Key-Value-Comment entries.
    ".

(** The elements the script puts on the page. *)
Inductive Widget :=
  | st_warning (body : string)
  | st_success (body : string)
  | st_subheader (body : string)
  | st_dataframe (df : DataFrame)
  | st_download_button (label : string) (data : XlsxFile)
      (file_name mime : string)
  | st_error (body : string).

(** What was sent out, and what the page shows, during one run of the
    script. *)
Record World := mkWorld {
  requests : list Request;
  page : list Widget
}.

Definition start : World := mkWorld [] [].

Definition show (w : Widget) (world : World) : World :=
  mkWorld (requests world) (page world ++ [w]).

Definition send (r : Request) (world : World) : World :=
  mkWorld (requests world ++ [r]) (page world).

(** [process_document(api_key, text_content)]: one request with the fixed
    system prompt and the document text, answered by the provider.  The
    script calls it behind its credential guard, with a key that is not
    empty. *)
Definition process_document (provider : Provider) (api_key text_content : string)
    (world : World) : result ExtractedData * World :=
  let llm := mkRequest "gpt-4o" 0 api_key in
  let prompt :=
    [("system", system_prompt);
     ("human", "Here is the document content:" +:+ LF +:+ LF +:+ text_content)] in
  let chain := llm prompt in
  (provider chain, send chain world).

(** ** 3. The Streamlit script *)

(** [item.dict()] *)
Definition DataPoint_dict (item : DataPoint) : dict :=
  [("key", Some (key item)); ("value", Some (value item));
   ("comments", comments item)].

(** The body of the [try] block, up to the first exception. *)
Definition try_block (provider : Provider) (now : N) (api_key : string)
    (uploaded_file : UploadedFile) (world : World) : result unit * World :=
  match get_pdf_text uploaded_file with
  | Raise e => (Raise e, world)
  | Ok raw_text =>
      match process_document provider api_key raw_text world with
      | (Raise e, world) => (Raise e, world)
      | (Ok result, world) =>
          let data_dicts := map DataPoint_dict (entries result) in
          let df := DataFrame_of_dicts data_dicts in
          let world := show (st_success "Processing Complete!") world in
          let world := show (st_subheader "Data Preview") world in
          let world := show (st_dataframe df) world in
          match create_formatted_excel now df with
          | Raise e => (Raise e, world)
          | Ok excel_data =>
              (Ok tt,
               show (st_download_button "📥 Download Formatted Excel" excel_data
                       "Structured_Output.xlsx"
                       "application/vnd.openxmlformats-officedocument.spreadsheetml.sheet")
                    world)
          end
      end
  end.

(** [try: ... except Exception as e: st.error(...)] *)
Definition process_button (provider : Provider) (now : N) (api_key : string)
    (uploaded_file : UploadedFile) (world : World) : World :=
  match try_block provider now api_key uploaded_file world with
  | (Ok _, world) => world
  | (Raise e, world) =>
      show (st_error ("An error occurred during processing: " +:+ exn_str e))
        world
  end.

(** One run of the script below the file uploader: [api_key] is the text of
    the sidebar input, [uploaded_file] what the uploader returned, [clicked]
    whether the process button was pressed.  The static layout above it
    (title, sidebar texts) shows the same in every run and is left out, and
    so is the spinner, which is gone when the block it wraps is left. *)
Definition main (provider : Provider) (now : N) (api_key : string)
    (uploaded_file : option UploadedFile) (clicked : bool) : World :=
  match uploaded_file with
  | Some uploaded_file =>
      if String.eqb api_key "" then
        show (st_warning
                "⚠️ Please enter your OpenAI API Key in the sidebar to proceed.")
          start
      else if clicked then
        process_button provider now api_key uploaded_file start
      else start
  | None => start
  end.

(** The frame the script builds from an extraction result. *)
Definition frame_of (extracted : ExtractedData) : DataFrame :=
  DataFrame_of_dicts (map DataPoint_dict (entries extracted)).

(** Rendering an extraction result. *)
Definition render (now : N) (extracted : ExtractedData) : result XlsxFile :=
  create_formatted_excel now (frame_of extracted).

(** ** What is observed of a rendered file *)

(** The single sheet of a file, when it has exactly one. *)
Definition the_sheet (f : XlsxFile) : option Worksheet :=
  match file_sheets f with
  | [(_, ws)] => Some ws
  | _ => None
  end.

(** The rows, and the columns, that have a cell in the table. *)
Definition populated_rows (ws : Worksheet) : gset N :=
  set_map fst (dom (table ws)).


(** The text of a cell, when the cell is there and holds a string. *)
Definition cell_text (ws : Worksheet) (r c : N) : option string :=
  match table ws !! (r, c) with
  | Some (mkCell (cell_string s) _) => Some s
  | _ => None
  end.


(** The body cells pandas writes for column [j], top to bottom. *)
Definition cells_of_column (j : N) (vals : list (option string))
    : list ExcelCell :=
  imap (fun i v => mkExcelCell (1 + N.of_nat i) j (format_value v) None) vals.

(** The loop of [write_cells] over the cells. *)
Definition write_all (ws : Worksheet) (cells : list ExcelCell) : Worksheet :=
  fold_left (fun wks c => write wks (row c) (col c) (val c) (style c)) cells ws.

(** Where a cell goes. *)
Definition pos (c : ExcelCell) : N * N := (row c, col c).

(** ** The frame and the sheet of an extraction result *)

(** The field names of [DataPoint], and the row of a record under them. *)
Definition record_labels : list string := ["key"; "value"; "comments"].

Definition record_row (r : DataPoint) : list (option string) :=
  [Some (key r); Some (value r); comments r].

(** The frame of one or more records. *)
Definition records_frame (rs : list DataPoint) : DataFrame :=
  mkDataFrame record_labels (map record_row rs).

(** The header cells pandas writes for the labels. *)
Definition header_cells (labels : list string) : list ExcelCell :=
  imap (fun j l => mkExcelCell 0 (N.of_nat j) l (Some header_style)) labels.

(** All the cells pandas writes for the frame of the records. *)
Definition record_cells (rs : list DataPoint) : list ExcelCell :=
  header_cells record_labels
  ++ cells_of_column 0 (map (fun r => Some (key r)) rs)
  ++ cells_of_column 1 (map (fun r => Some (value r)) rs)
  ++ cells_of_column 2 (map comments rs).

(** The worksheet [create_formatted_excel] leaves behind for a frame. *)
Definition drawn (df : DataFrame) : Worksheet :=
  let worksheet := write_all empty_worksheet (get_formatted_cells df) in
  let worksheet := write_headers worksheet (columns df) in
  let worksheet := set_column worksheet "A:A" 30 (Some body_format) in
  let worksheet := set_column worksheet "B:B" 50 (Some body_format) in
  set_column worksheet "C:C" 40 (Some body_format).

(** The frame passes the size check of [to_excel]. *)
Definition fits (df : DataFrame) : Prop :=
  num_rows df <= max_rows ∧ num_cols df <= max_cols.

Definition fitsb (df : DataFrame) : bool :=
  negb ((max_rows <? num_rows df) || (max_cols <? num_cols df)).

(** The field of a record that goes into column [j]. *)
Definition field (j : N) (r : DataPoint) : option string :=
  match j with
  | 0 => Some (key r)
  | 1 => Some (value r)
  | 2 => comments r
  | _ => None
  end.

(** What a reader finds in the row of the record at index [i]. *)
Definition read_row (ws : Worksheet) (i : nat)
    : option string * option string * option string :=
  (cell_text ws (1 + N.of_nat i) 0,
   cell_text ws (1 + N.of_nat i) 1,
   cell_text ws (1 + N.of_nat i) 2).

(** The first [n] body rows, read back. *)
Definition read_back (ws : Worksheet) (n : nat)
    : list (option string * option string * option string) :=
  read_row ws <$> seq 0 n.








(** ** What is observed of the page *)

Definition is_download (w : Widget) : bool :=
  match w with st_download_button _ _ _ _ => true | _ => false end.

Definition is_error (w : Widget) : bool :=
  match w with st_error _ => true | _ => false end.

(** The message of the [except] clause. *)
Definition error_message (e : Exn) : Widget :=
  st_error ("An error occurred during processing: " +:+ exn_str e).

(** The warning of the credential guard. *)
Definition credential_warning : Widget :=
  st_warning "⚠️ Please enter your OpenAI API Key in the sidebar to proceed.".

(** What is on the page when the frame has been built and shown. *)
Definition preview (extracted : ExtractedData) : list Widget :=
  [st_success "Processing Complete!"; st_subheader "Data Preview";
   st_dataframe (frame_of extracted)].

(** A stage of the pipeline raises [e]: the text extraction, or the model
    call on the extracted text, or the rendering of the model's answer. *)
Inductive stage_fails (provider : Provider) (now : N) (api_key : string)
    (uploaded_file : UploadedFile) (e : Exn) : list Widget → Prop :=
  | extraction_fails :
      get_pdf_text uploaded_file = Raise e →
      stage_fails provider now api_key uploaded_file e []
  | model_call_fails raw_text :
      get_pdf_text uploaded_file = Ok raw_text →
      fst (process_document provider api_key raw_text start) = Raise e →
      stage_fails provider now api_key uploaded_file e []
  | rendering_fails raw_text extracted :
      get_pdf_text uploaded_file = Ok raw_text →
      fst (process_document provider api_key raw_text start) = Ok extracted →
      create_formatted_excel now (frame_of extracted) = Raise e →
      stage_fails provider now api_key uploaded_file e (preview extracted).

(** ** Further observations *)

(** A row of the frame read as a record again. *)
Definition decode_row (cells : list (option string)) : option DataPoint :=
  match cells with
  | [Some k; Some v; c] => Some (mkDataPoint k v c)
  | _ => None
  end.


(** The header cells the script's loop writes for the labels. *)
Definition script_header_cells (labels : list string) : list ExcelCell :=
  imap (fun j l => mkExcelCell 0 (N.of_nat j) l (Some header_format)) labels.

(** The column settings after the three [set_column] calls. *)
Definition fixed_columns : gmap N (N * option Format) :=
  <[2 := (40, Some body_format)]>
    (<[1 := (50, Some body_format)]>
       (<[0 := (30, Some body_format)]> ∅)).

(** The request [process_document] sends for a key and a text. *)
Definition the_request (api_key text_content : string) : Request :=
  mkRequest "gpt-4o" 0 api_key
    [("system", system_prompt);
     ("human", "Here is the document content:" +:+ LF +:+ LF +:+ text_content)].

(** The button the script offers a rendered file with. *)
Definition download_button (file : XlsxFile) : Widget :=
  st_download_button "📥 Download Formatted Excel" file
    "Structured_Output.xlsx"
    "application/vnd.openxmlformats-officedocument.spreadsheetml.sheet".

(** ** Facts about the writer *)

Section WriterFacts.

Implicit Types (ws : Worksheet) (p : N * N) (cells : list ExcelCell).

Lemma table_store_ne ws r c x p :
  (r, c) ≠ p → table (store ws r c x) !! p = table ws !! p.
Proof. intros Hne. unfold store; simpl. by rewrite lookup_insert_ne. Qed.

Lemma table_store_eq ws r c x :
  table (store ws r c x) !! (r, c) = Some x.
Proof. unfold store; simpl. by rewrite lookup_insert_eq. Qed.

(** A write to one cell leaves every other cell of the table alone. *)
Lemma table_write_ne ws r c tok fmt p :
  (r, c) ≠ p → table (write ws r c tok fmt) !! p = table ws !! p.
Proof.
  intros Hne. unfold write.
  destruct (token_kind tok).
  - unfold write_blank. destruct fmt; [|done].
    destruct (check_dimensions r c); [done|]. by apply table_store_ne.
  - unfold write_formula.
    destruct (check_dimensions r c); [done|]. by apply table_store_ne.
  - unfold write_url.
    destruct (check_dimensions r c); [done|].
    destruct (split_anchor tok) as [u a].
    destruct (_ || _); [done|].
    destruct (max_hlinks <? _); [done|].
    by rewrite table_store_ne.
  - unfold write_string.
    destruct (check_dimensions r c); [done|]. by apply table_store_ne.
Qed.

Lemma col_info_write ws r c tok fmt :
  col_info (write ws r c tok fmt) = col_info ws.
Proof.
  unfold write, write_blank, write_formula, write_url, write_string.
  destruct (token_kind tok); destruct fmt;
    destruct (check_dimensions r c); try done;
    destruct (split_anchor tok); destruct (_ || _); try done;
    destruct (max_hlinks <? _); done.
Qed.

Lemma write_all_app ws cells1 cells2 :
  write_all ws (cells1 ++ cells2) = write_all (write_all ws cells1) cells2.
Proof. unfold write_all. by rewrite fold_left_app. Qed.

Lemma write_all_cons ws c cells :
  write_all ws (c :: cells)
  = write_all (write ws (row c) (col c) (val c) (style c)) cells.
Proof. done. Qed.

(** Cells that are written nowhere keep what they had. *)
Lemma table_write_all_notin cells ws p :
  Forall (fun c => pos c ≠ p) cells →
  table (write_all ws cells) !! p = table ws !! p.
Proof.
  revert ws. induction cells as [|c cells IH]; intros ws Hall; [done|].
  inversion Hall as [|? ? Hc Hrest]; subst.
  rewrite write_all_cons, IH by done. by apply table_write_ne.
Qed.

Lemma col_info_write_all cells ws :
  col_info (write_all ws cells) = col_info ws.
Proof.
  revert ws. induction cells as [|c cells IH]; intros ws; [done|].
  by rewrite write_all_cons, IH, col_info_write.
Qed.

Lemma in_sheet_check r c :
  r < xls_rowmax → c < xls_colmax → check_dimensions r c = false.
Proof.
  intros Hr Hc. unfold check_dimensions.
  apply orb_false_iff; split; apply N.leb_gt; done.
Qed.


(** An empty token without a format writes nothing at all. *)
Lemma write_blank_unformatted ws r c tok :
  token_kind tok = TBlank → write ws r c tok None = ws.
Proof. intros Hk. unfold write. by rewrite Hk. Qed.


(** Among cells at distinct positions, an empty unformatted cell leaves its
    position as it was. *)
Lemma table_write_all_blank cells ws c :
  NoDup (pos <$> cells) → c ∈ cells →
  token_kind (val c) = TBlank → style c = None →
  table (write_all ws cells) !! pos c = table ws !! pos c.
Proof.
  revert ws. induction cells as [|c' cells IH]; intros ws Hnd Hin Hk Hs.
  { by apply elem_of_nil in Hin. }
  rewrite fmap_cons in Hnd. apply NoDup_cons in Hnd as [Hfresh Hnd].
  rewrite write_all_cons.
  apply elem_of_cons in Hin as [->|Hin].
  - rewrite Hs, write_blank_unformatted by done.
    apply table_write_all_notin.
    apply Forall_forall. intros d Hd Heq. apply Hfresh.
    rewrite <- Heq. by apply list_elem_of_fmap_2.
  - rewrite IH by done.
    apply table_write_ne. intros Heq. apply Hfresh.
    replace (pos c') with (pos c) by (symmetry; exact Heq).
    by apply list_elem_of_fmap_2.
Qed.

End WriterFacts.

(** ** Facts about the frame and the rendered sheet *)

Section RendererFacts.

Implicit Types (ws : Worksheet) (rs : list DataPoint) (df : DataFrame).

Lemma labels_stable rs :
  fold_left (fun cols d => fold_left add_label (map fst d) cols)
    (map DataPoint_dict rs) record_labels = record_labels.
Proof. induction rs as [|r rs IH]; [done|]. simpl. exact IH. Qed.

Lemma frame_of_nil : frame_of (mkExtractedData []) = mkDataFrame [] [].
Proof. reflexivity. Qed.

(** With at least one record the frame has the three columns of the schema,
    in field order, and one row per record. *)
Lemma frame_of_records rs :
  rs ≠ [] →
  frame_of (mkExtractedData rs)
  = mkDataFrame record_labels (map record_row rs).
Proof.
  intros Hne. destruct rs as [|r rs]; [done|].
  unfold frame_of, DataFrame_of_dicts. simpl entries.
  assert (Hcols :
    fold_left (fun cols d => fold_left add_label (map fst d) cols)
      (map DataPoint_dict (r :: rs)) [] = record_labels).
  { simpl. apply labels_stable. }
  rewrite Hcols. f_equal.
  rewrite map_map. apply map_ext. intros a. reflexivity.
Qed.

Lemma formatted_cells_records rs :
  get_formatted_cells (mkDataFrame record_labels (map record_row rs))
  = record_cells rs.
Proof.
  unfold get_formatted_cells, record_cells, format_header, format_body,
    header_cells, cells_of_column, column.
  simpl. rewrite !map_map. simpl. by rewrite app_nil_r.
Qed.

Lemma table_set_column ws range width fmt :
  table (set_column ws range width fmt) = table ws.
Proof.
  unfold set_column. destruct (convert_column_args range).
  by destruct (_ || _).
Qed.

Lemma fitsb_true df : fitsb df = true ↔ fits df.
Proof.
  unfold fitsb, fits. rewrite negb_true_iff, orb_false_iff, !N.ltb_ge. done.
Qed.

(** A frame within the size limits is rendered to a file with the one sheet
    ["Extracted Data"]; a larger one raises pandas' [ValueError]. *)
Lemma create_formatted_excel_fits now df :
  fits df →
  create_formatted_excel now df
  = Ok (mkXlsxFile [("Extracted Data", drawn df)] now).
Proof.
  intros Hfit. apply fitsb_true in Hfit. unfold fitsb in Hfit.
  apply negb_true_iff in Hfit.
  unfold create_formatted_excel, to_excel. rewrite Hfit. reflexivity.
Qed.

Lemma create_formatted_excel_too_large now df :
  ¬ fits df →
  create_formatted_excel now df = Raise (sheet_too_large df).
Proof.
  intros Hfit. rewrite <- fitsb_true in Hfit.
  apply not_true_is_false in Hfit. unfold fitsb in Hfit.
  apply negb_false_iff in Hfit.
  unfold create_formatted_excel, to_excel. by rewrite Hfit.
Qed.

Lemma create_formatted_excel_cases now df :
  create_formatted_excel now df
  = if fitsb df
    then Ok (mkXlsxFile [("Extracted Data", drawn df)] now)
    else Raise (sheet_too_large df).
Proof.
  destruct (fitsb df) eqn:Hfit.
  - apply create_formatted_excel_fits. by apply fitsb_true.
  - apply create_formatted_excel_too_large. rewrite <- fitsb_true. congruence.
Qed.

End RendererFacts.

Section SheetFacts.

Implicit Types (ws : Worksheet) (rs : list DataPoint) (vals : list (option string)).

Lemma elem_cells_of_column j vals c :
  c ∈ cells_of_column j vals →
  ∃ i v, vals !! i = Some v
         ∧ c = mkExcelCell (1 + N.of_nat i) j (format_value v) None.
Proof.
  unfold cells_of_column. intros Hin.
  apply elem_of_lookup_imap_1 in Hin as (i & v & -> & Hv). eauto.
Qed.

Lemma cells_of_column_lookup j vals i v :
  vals !! i = Some v →
  mkExcelCell (1 + N.of_nat i) j (format_value v) None ∈ cells_of_column j vals.
Proof.
  intros Hv. unfold cells_of_column.
  exact (elem_of_lookup_imap_2
           (fun i v => mkExcelCell (1 + N.of_nat i) j (format_value v) None)
           vals v i Hv).
Qed.

Lemma cells_of_column_NoDup j vals : NoDup (pos <$> cells_of_column j vals).
Proof.
  unfold cells_of_column.
  assert (Heq : pos <$> imap (fun i v =>
                   mkExcelCell (1 + N.of_nat i) j (format_value v) None) vals
                = (fun i => (1 + N.of_nat i, j)) <$> seq 0 (length vals)).
  { rewrite <- imap_seq_0. rewrite fmap_imap. apply imap_ext. done. }
  rewrite Heq. apply NoDup_fmap_2_strong; [|apply NoDup_seq].
  intros x y _ _ Hxy. inversion Hxy. lia.
Qed.

Lemma cells_of_column_other_col j vals r c :
  c ≠ j → Forall (fun x => pos x ≠ (r, c)) (cells_of_column j vals).
Proof.
  intros Hne. apply Forall_forall. intros x Hx.
  apply elem_cells_of_column in Hx as (i & v & _ & ->).
  unfold pos; simpl. congruence.
Qed.

Lemma cells_of_column_other_row j vals r c :
  (r = 0 ∨ N.of_nat (length vals) < r) →
  Forall (fun x => pos x ≠ (r, c)) (cells_of_column j vals).
Proof.
  intros Hr. apply Forall_forall. intros x Hx.
  apply elem_cells_of_column in Hx as (i & v & Hv & ->).
  apply lookup_lt_Some in Hv.
  unfold pos; simpl. intros Heq. inversion Heq. lia.
Qed.

Lemma header_cells_other labels r c :
  (r ≠ 0 ∨ N.of_nat (length labels) <= c) →
  Forall (fun x => pos x ≠ (r, c)) (header_cells labels).
Proof.
  intros Hr. apply Forall_forall. intros x Hx.
  unfold header_cells in Hx.
  apply elem_of_lookup_imap_1 in Hx as (i & v & -> & Hv).
  apply lookup_lt_Some in Hv.
  unfold pos; simpl. intros Heq. inversion Heq. lia.
Qed.

Lemma field_lookup rs i r (f : DataPoint → option string) :
  rs !! i = Some r → map f rs !! i = Some (f r).
Proof. intros Hr. change (map f rs) with (f <$> rs). by rewrite list_lookup_fmap, Hr. Qed.


(** An empty field leaves its cell out of the table. *)
Lemma record_cells_blank rs i r j :
  rs !! i = Some r → j < 3 →
  format_value (field j r) = "" →
  table (write_all empty_worksheet (record_cells rs)) !! (1 + N.of_nat i, j)
  = None.
Proof.
  intros Hr Hj Hblank.
  assert (Hk : token_kind (format_value (field j r)) = TBlank)
    by (by rewrite Hblank).
  assert (Hhead : ∀ c, table (write_all empty_worksheet
                               (header_cells record_labels))
                       !! (1 + N.of_nat i, c) = None).
  { intros c. rewrite table_write_all_notin; [done|].
    apply header_cells_other. left. lia. }
  unfold record_cells. rewrite !write_all_app.
  assert (j = 0 ∨ j = 1 ∨ j = 2) as [-> | [-> | ->]] by lia.
  - rewrite (table_write_all_notin (cells_of_column 2 _))
      by (by apply cells_of_column_other_col).
    rewrite (table_write_all_notin (cells_of_column 1 _))
      by (by apply cells_of_column_other_col).
    rewrite <- (Hhead 0).
    apply (table_write_all_blank _ _
             (mkExcelCell (1 + N.of_nat i) 0 (format_value (field 0 r)) None));
      try done.
    + apply cells_of_column_NoDup.
    + apply cells_of_column_lookup. by apply (field_lookup _ _ _ (field 0)).
  - rewrite (table_write_all_notin (cells_of_column 2 _))
      by (by apply cells_of_column_other_col).
    rewrite <- (Hhead 1).
    rewrite <- (table_write_all_notin (cells_of_column 0 (map (fun r => Some (key r)) rs))
                  (write_all empty_worksheet (header_cells record_labels))
                  (1 + N.of_nat i, 1))
      by (by apply cells_of_column_other_col).
    apply (table_write_all_blank _ _
             (mkExcelCell (1 + N.of_nat i) 1 (format_value (field 1 r)) None));
      try done.
    + apply cells_of_column_NoDup.
    + apply cells_of_column_lookup. by apply (field_lookup _ _ _ (field 1)).
  - rewrite <- (Hhead 2).
    rewrite <- (table_write_all_notin (cells_of_column 0 (map (fun r => Some (key r)) rs))
                  (write_all empty_worksheet (header_cells record_labels))
                  (1 + N.of_nat i, 2))
      by (by apply cells_of_column_other_col).
    rewrite <- (table_write_all_notin (cells_of_column 1 (map (fun r => Some (value r)) rs))
                  (write_all (write_all empty_worksheet (header_cells record_labels))
                     (cells_of_column 0 (map (fun r => Some (key r)) rs)))
                  (1 + N.of_nat i, 2))
      by (by apply cells_of_column_other_col).
    apply (table_write_all_blank _ _
             (mkExcelCell (1 + N.of_nat i) 2 (format_value (field 2 r)) None));
      try done.
    + apply cells_of_column_NoDup.
    + apply cells_of_column_lookup. by apply (field_lookup _ _ _ (field 2)).
Qed.

(** Nothing is written below the last record or right of the third column. *)
Lemma record_cells_outside ws rs r c :
  (N.of_nat (length rs) < r ∨ 3 <= c) →
  (r = 0 → 3 <= c) →
  table (write_all ws (record_cells rs)) !! (r, c) = table ws !! (r, c).
Proof.
  intros Hout Hzero. apply table_write_all_notin.
  unfold record_cells. rewrite !Forall_app. repeat split.
  - apply header_cells_other. simpl.
    destruct (decide (r = 0)); [right; apply Hzero; done | left; done].
  - destruct Hout as [Hr | Hc].
    + apply cells_of_column_other_row. right. by rewrite length_map.
    + apply cells_of_column_other_col. lia.
  - destruct Hout as [Hr | Hc].
    + apply cells_of_column_other_row. right. by rewrite length_map.
    + apply cells_of_column_other_col. lia.
  - destruct Hout as [Hr | Hc].
    + apply cells_of_column_other_row. right. by rewrite length_map.
    + apply cells_of_column_other_col. lia.
Qed.

End SheetFacts.

Section DrawnFacts.

Implicit Types (ws : Worksheet) (rs : list DataPoint).

Lemma table_drawn_records rs p :
  table (drawn (records_frame rs)) !! p
  = table (write_headers (write_all empty_worksheet (record_cells rs))
             record_labels) !! p.
Proof.
  unfold drawn. rewrite !table_set_column.
  unfold records_frame at 1. by rewrite formatted_cells_records.
Qed.

Lemma write_headers_records ws :
  write_headers ws record_labels
  = write (write (write ws 0 0 "key" (Some header_format))
             0 1 "value" (Some header_format))
      0 2 "comments" (Some header_format).
Proof. reflexivity. Qed.

Lemma table_drawn_body rs r c :
  r ≠ 0 →
  table (drawn (records_frame rs)) !! (r, c)
  = table (write_all empty_worksheet (record_cells rs)) !! (r, c).
Proof.
  intros Hr. rewrite table_drawn_records, write_headers_records.
  rewrite !table_write_ne; [done|congruence..].
Qed.



Lemma table_drawn_outside rs r c :
  (N.of_nat (length rs) < r ∨ 3 <= c) →
  table (drawn (records_frame rs)) !! (r, c) = None.
Proof.
  intros Hout. destruct (decide (r = 0)) as [-> | Hr].
  - destruct Hout as [Hlt | Hc]; [lia|].
    rewrite table_drawn_records, write_headers_records.
    rewrite !table_write_ne by (intros Heq; inversion Heq; lia).
    rewrite record_cells_outside; [done | by right | done].
  - rewrite table_drawn_body by done.
    rewrite record_cells_outside; [done | done | done].
Qed.






Lemma records_fit rs :
  N.of_nat (length rs) < xls_rowmax → fits (records_frame rs).
Proof.
  intros Hrows. unfold fits, num_rows, num_cols, records_frame; simpl.
  rewrite length_map. unfold xls_rowmax in Hrows. unfold max_rows, max_cols.
  lia.
Qed.

End DrawnFacts.

(** ** Text extraction *)

Section ExtractionFacts.

Lemma append_cons (c : ascii) (s t : string) :
  String c s +:+ t = String c (s +:+ t).
Proof. reflexivity. Qed.

Lemma append_nil_l (t : string) : "" +:+ t = t.
Proof. reflexivity. Qed.

Lemma append_nil_r (s : string) : s +:+ "" = s.
Proof.
  induction s as [|c s IH]; [done|]. by rewrite append_cons, IH.
Qed.

Lemma append_assoc (s1 s2 s3 : string) :
  (s1 +:+ s2) +:+ s3 = s1 +:+ (s2 +:+ s3).
Proof.
  induction s1 as [|c s1 IH]; [done|]. by rewrite !append_cons, IH.
Qed.

(** The loop appends every page's text and a newline to what it has. *)
Lemma get_pdf_text_loop_texts (texts : list string) (text : string) :
  get_pdf_text_loop (PageText <$> texts) text = Ok (text +:+ joined texts).
Proof.
  revert text. induction texts as [|t texts IH]; intros text; simpl.
  - by rewrite append_nil_r.
  - unfold bind. rewrite IH. by rewrite !append_assoc.
Qed.

(** The first page whose extraction raises ends the loop with its error. *)
Lemma get_pdf_text_loop_broken (before : list string) e (after : list Page)
    (text : string) :
  get_pdf_text_loop ((PageText <$> before) ++ PageBroken e :: after) text
  = Raise e.
Proof.
  revert text. induction before as [|t before IH]; intros text; simpl; [done|].
  unfold bind. apply IH.
Qed.

Lemma segments_from_page (t cur rest : string) :
  has_newline t = false →
  segments_from cur (t +:+ LF +:+ rest) = (cur +:+ t) :: segments_from "" rest.
Proof.
  revert cur. induction t as [|c t IH]; intros cur Hnl.
  - rewrite append_nil_l, append_nil_r. reflexivity.
  - simpl in Hnl. apply orb_false_iff in Hnl as [Hc Ht].
    rewrite append_cons. simpl. rewrite Hc, IH by done.
    by rewrite append_assoc.
Qed.

(** When no page's text has a newline of its own, the segments of the
    extracted text are the pages' texts. *)
Lemma segments_joined (texts : list string) :
  Forall (fun t => has_newline t = false) texts →
  segments (joined texts) = texts.
Proof.
  unfold segments. induction texts as [|t texts IH]; intros Hall; [done|].
  inversion Hall as [|? ? Ht Hrest]; subst. simpl.
  rewrite segments_from_page by done. rewrite append_nil_l. by rewrite IH.
Qed.

End ExtractionFacts.

(** C2 (as amended): for a PDF whose N pages all yield text, [get_pdf_text]
    returns the pages' texts in page order, each followed by a newline; a
    page without text contributes the empty string at its position.  When no
    page's text contains a newline itself, splitting the result at the
    separator gives back exactly the N texts. *)
Theorem get_pdf_text_joins_pages (texts : list string) :
  Forall (fun t => has_newline t = false) texts →
  get_pdf_text (Document (PageText <$> texts)) = Ok (joined texts)
  ∧ segments (joined texts) = texts
  ∧ length (segments (joined texts)) = length texts.
Proof.
  intros Hall. assert (Hseg := segments_joined texts Hall).
  split; [|split; [done | by rewrite Hseg]].
  unfold get_pdf_text; simpl. by rewrite get_pdf_text_loop_texts.
Qed.

Lemma get_pdf_text_joins_pages_witness :
  get_pdf_text
    (Document (PageText <$> ["Name: Alice"; ""; "Role: Engineer"]))
  = Ok (joined ["Name: Alice"; ""; "Role: Engineer"])
  ∧ segments (joined ["Name: Alice"; ""; "Role: Engineer"])
    = ["Name: Alice"; ""; "Role: Engineer"]
  ∧ length (segments (joined ["Name: Alice"; ""; "Role: Engineer"])) = 3%nat.
Proof.
  apply (get_pdf_text_joins_pages ["Name: Alice"; ""; "Role: Engineer"]).
  repeat constructor.
Defined.

(** The concatenation holds whatever the pages' texts are. *)
Lemma get_pdf_text_concatenates (texts : list string) :
  get_pdf_text (Document (PageText <$> texts)) = Ok (joined texts).
Proof. unfold get_pdf_text; simpl. by rewrite get_pdf_text_loop_texts. Qed.

(** C2, as stated, fails: a one-page PDF whose page has two lines is
    extracted to a text with two separator-delimited segments. *)
Lemma get_pdf_text_two_line_page :
  get_pdf_text
    (Document [PageText ("Name: Alice" +:+ LF +:+ "Role: Engineer")])
  = Ok ("Name: Alice" +:+ LF +:+ "Role: Engineer" +:+ LF)
  ∧ segments ("Name: Alice" +:+ LF +:+ "Role: Engineer" +:+ LF)
    = ["Name: Alice"; "Role: Engineer"]
  ∧ length (segments ("Name: Alice" +:+ LF +:+ "Role: Engineer" +:+ LF))
    = 2%nat.
Proof. repeat split. Qed.

(** C6 (as amended): [get_pdf_text] raises what pypdf raises: the reader's
    error on a stream it cannot parse, [FileNotDecryptedError] on an
    encrypted document, and the error of the first page whose text cannot be
    extracted.  A document with zero pages is not an error: its text is the
    empty string. *)
Theorem get_pdf_text_failures :
  (∀ e, get_pdf_text (Unreadable e) = Raise e)
  ∧ get_pdf_text Encrypted = Raise FileNotDecryptedError
  ∧ (∀ before e after,
       get_pdf_text (Document ((PageText <$> before) ++ PageBroken e :: after))
       = Raise e)
  ∧ get_pdf_text (Document []) = Ok "".
Proof.
  repeat split.
  intros before e after. unfold get_pdf_text; simpl.
  apply get_pdf_text_loop_broken.
Qed.

(** C6, as stated, fails on a PDF with zero pages: no error is raised. *)
Lemma get_pdf_text_zero_pages :
  get_pdf_text (Document []) = Ok ""
  ∧ is_ok (get_pdf_text (Document [])) = true.
Proof. split; reflexivity. Qed.

(** ** Rendering *)

Lemma frame_of_entries (extracted : ExtractedData) :
  entries extracted ≠ [] →
  frame_of extracted = records_frame (entries extracted).
Proof.
  intros Hne. destruct extracted as [rs]. by apply frame_of_records.
Qed.

Lemma render_records now (extracted : ExtractedData) :
  entries extracted ≠ [] →
  N.of_nat (length (entries extracted)) < xls_rowmax →
  render now extracted
  = Ok (mkXlsxFile
          [("Extracted Data", drawn (records_frame (entries extracted)))] now).
Proof.
  intros Hne Hrows. unfold render. rewrite frame_of_entries by done.
  apply create_formatted_excel_fits. by apply records_fit.
Qed.





(** A record whose fields are all empty leaves its row unpopulated. *)
Lemma render_blank_record :
  ∃ file ws,
    render 0 (mkExtractedData [mkDataPoint "" "" None]) = Ok file
    ∧ file_sheets file = [("Extracted Data", ws)]
    ∧ size (populated_rows ws) = 1%nat.
Proof. eexists _, _. repeat split; vm_compute; reflexivity. Qed.

(** C5 (as amended): [create_formatted_excel] does not look at the columns
    of the frame.  Any frame within the size limits of a sheet is rendered,
    its own labels going into the header row; a larger one raises pandas'
    [ValueError]. *)
Theorem create_formatted_excel_any_columns now (df : DataFrame) :
  create_formatted_excel now df
  = if fitsb df
    then Ok (mkXlsxFile [("Extracted Data", drawn df)] now)
    else Raise (sheet_too_large df).
Proof. apply create_formatted_excel_cases. Qed.

(** C5, as stated, fails: a frame with two columns of other names is
    rendered, with those names in the header row. *)
Lemma create_formatted_excel_two_columns :
  ∃ file ws,
    create_formatted_excel 0
      (mkDataFrame ["label"; "text"] [[Some "Name"; Some "Alice"]])
    = Ok file
    ∧ file_sheets file = [("Extracted Data", ws)]
    ∧ cell_text ws 0 0 = Some "label"
    ∧ cell_text ws 0 1 = Some "text"
    ∧ cell_text ws 1 0 = Some "Name"
    ∧ cell_text ws 1 1 = Some "Alice".
Proof. eexists _, _. repeat split; vm_compute; reflexivity. Qed.

(** The size check can be reached from the script: an extraction result
    with more records than pandas allows rows is not rendered. *)
Lemma render_too_many_records now (extracted : ExtractedData) :
  max_rows < N.of_nat (length (entries extracted)) →
  render now extracted = Raise (sheet_too_large (frame_of extracted)).
Proof.
  intros Hmany. apply create_formatted_excel_too_large.
  assert (Hne : entries extracted ≠ []).
  { intros Hnil. rewrite Hnil in Hmany. simpl in Hmany. lia. }
  rewrite frame_of_entries by done.
  unfold fits, num_rows, records_frame. simpl data. rewrite length_map. lia.
Qed.


(** Two runs at different times give files that differ, in the creation
    time only. *)
Lemma create_formatted_excel_clock :
  create_formatted_excel 1 (mkDataFrame [] [])
  ≠ create_formatted_excel 2 (mkDataFrame [] []).
Proof. vm_compute. congruence. Qed.

Section ReadingFacts.

Implicit Types (ws : Worksheet) (rs : list DataPoint).


Lemma drawn_field_blank rs i r j :
  rs !! i = Some r → j < 3 →
  format_value (field j r) = "" →
  table (drawn (records_frame rs)) !! (1 + N.of_nat i, j) = None.
Proof.
  intros Hr Hj Hblank. rewrite table_drawn_body by lia.
  by eapply record_cells_blank.
Qed.

Lemma cell_text_absent ws r c :
  table ws !! (r, c) = None → cell_text ws r c = None.
Proof. intros Hc. unfold cell_text. by rewrite Hc. Qed.






End ReadingFacts.


Lemma the_sheet_drawn now (df : DataFrame) :
  the_sheet (mkXlsxFile [("Extracted Data", drawn df)] now) = Some (drawn df).
Proof. reflexivity. Qed.



Section Truncation.


Lemma length_append (s1 s2 : string) :
  String.length (s1 +:+ s2) = (String.length s1 + String.length s2)%nat.
Proof.
  induction s1 as [|c s1 IH]; [done|].
  rewrite append_cons. simpl. by rewrite IH.
Qed.









End Truncation.


(** A value that starts with [=] is stored as a formula: no text is read
    back from its cell. *)
Lemma render_formula_value :
  ∃ file ws,
    render 0 (mkExtractedData [mkDataPoint "Total" "=1+1" None]) = Ok file
    ∧ the_sheet file = Some ws
    ∧ table ws !! (1, 1) = Some (mkCell (cell_formula "=1+1" 0) None)
    ∧ read_back ws 1 = [(Some "Total", None, None)].
Proof. eexists _, _. repeat split; vm_compute; reflexivity. Qed.




(** ** The script *)

Section ScriptFacts.

Lemma main_runs provider now api_key uploaded_file :
  api_key ≠ "" →
  main provider now api_key (Some uploaded_file) true
  = process_button provider now api_key uploaded_file start.
Proof.
  intros Hkey. unfold main.
  apply String.eqb_neq in Hkey. by rewrite Hkey.
Qed.

Lemma process_button_extraction_fails provider now api_key uploaded_file e :
  get_pdf_text uploaded_file = Raise e →
  process_button provider now api_key uploaded_file start
  = show (error_message e) start.
Proof.
  intros Hpdf. unfold process_button, try_block. by rewrite Hpdf.
Qed.

Lemma process_button_model_call_fails provider now api_key uploaded_file
    raw_text e :
  get_pdf_text uploaded_file = Ok raw_text →
  fst (process_document provider api_key raw_text start) = Raise e →
  page (process_button provider now api_key uploaded_file start)
  = [error_message e].
Proof.
  intros Hpdf Hllm. unfold process_button, try_block. rewrite Hpdf.
  destruct (process_document provider api_key raw_text start)
    as [r world] eqn:Hcall.
  simpl in Hllm. subst r.
  unfold process_document in Hcall. injection Hcall as _ <-. done.
Qed.

Lemma process_button_rendering_fails provider now api_key uploaded_file
    raw_text extracted e :
  get_pdf_text uploaded_file = Ok raw_text →
  fst (process_document provider api_key raw_text start) = Ok extracted →
  create_formatted_excel now (frame_of extracted) = Raise e →
  page (process_button provider now api_key uploaded_file start)
  = (preview extracted ++ [error_message e])%list.
Proof.
  intros Hpdf Hllm Hxl. unfold process_button, try_block. rewrite Hpdf.
  destruct (process_document provider api_key raw_text start)
    as [r world] eqn:Hcall.
  simpl in Hllm. subst r.
  unfold process_document in Hcall. injection Hcall as _ <-.
  fold (frame_of extracted). cbv zeta. by rewrite Hxl.
Qed.

End ScriptFacts.

(** C3: with an empty credential the run stops at the guard.  Nothing is
    sent to the provider, whatever was uploaded and whether or not the
    button was pressed, and with a file uploaded the page shows the warning
    that asks for the key, and nothing else. *)
Theorem missing_credential_short_circuits (provider : Provider) (now : N)
    (uploaded_file : UploadedFile) (clicked : bool) :
  requests (main provider now "" (Some uploaded_file) clicked) = []
  ∧ page (main provider now "" (Some uploaded_file) clicked)
    = [credential_warning]
  ∧ requests (main provider now "" None clicked) = [].
Proof. repeat split. Qed.

(** With a credential, a readable document and the button pressed, the
    request does go out: the guard is what stops it. *)
Lemma credential_given_sends_request :
  requests (main (fun _ => Ok (mkExtractedData [])) 0 "sk-test"
              (Some (Document [PageText "Name: Alice"])) true)
  = [mkRequest "gpt-4o" 0 "sk-test"
       [("system", system_prompt);
        ("human", "Here is the document content:" +:+ LF +:+ LF
                  +:+ "Name: Alice" +:+ LF)]].
Proof. reflexivity. Qed.

(** The rendering stage does fail on some answers: when the provider returns
    more records than pandas allows rows, the page shows the preview and then
    the message of pandas' [ValueError], and no download. *)
Lemma too_many_records_message (provider : Provider) (now : N)
    (api_key : string) (texts : list string) (extracted : ExtractedData) :
  api_key ≠ "" →
  fst (process_document provider api_key (joined texts) start) = Ok extracted →
  max_rows < N.of_nat (length (entries extracted)) →
  page (main provider now api_key (Some (Document (PageText <$> texts))) true)
  = (preview extracted
     ++ [error_message (sheet_too_large (frame_of extracted))])%list.
Proof.
  intros Hkey Hllm Hmany. rewrite main_runs by done.
  apply (process_button_rendering_fails _ _ _ _ (joined texts)); [|done|].
  - apply get_pdf_text_concatenates.
  - by apply render_too_many_records.
Qed.

(** C4: when a stage of the pipeline raises, no download is offered, and the
    page ends with the one error message built from the exception's text.
    When the extraction or the model call fails that message is all the page
    shows; when the rendering fails it comes after the preview of the frame. *)
Theorem failure_gives_one_message (provider : Provider) (now : N)
    (api_key : string) (uploaded_file : UploadedFile) (e : Exn)
    (shown : list Widget) :
  api_key ≠ "" →
  stage_fails provider now api_key uploaded_file e shown →
  page (main provider now api_key (Some uploaded_file) true)
  = (shown ++ [error_message e])%list
  ∧ forallb (fun w => negb (is_download w))
      (page (main provider now api_key (Some uploaded_file) true)) = true
  ∧ length (filter (fun w => is_error w = true)
              (page (main provider now api_key (Some uploaded_file) true)))
    = 1%nat.
Proof.
  intros Hkey Hfail. rewrite main_runs by done.
  destruct Hfail as [Hpdf | raw_text Hpdf Hllm | raw_text extracted Hpdf Hllm Hxl].
  - rewrite (process_button_extraction_fails _ _ _ _ e) by done.
    repeat split.
  - rewrite (process_button_model_call_fails _ _ _ _ raw_text e) by done.
    repeat split.
  - rewrite (process_button_rendering_fails _ _ _ _ raw_text extracted e)
      by done.
    repeat split.
Qed.

Lemma failure_gives_one_message_witness :
  page (main (fun _ => Ok (mkExtractedData [])) 0 "sk-test"
          (Some (Unreadable EmptyFileError)) true)
  = ([] ++ [error_message EmptyFileError])%list
  ∧ forallb (fun w => negb (is_download w))
      (page (main (fun _ => Ok (mkExtractedData [])) 0 "sk-test"
               (Some (Unreadable EmptyFileError)) true)) = true
  ∧ length (filter (fun w => is_error w = true)
              (page (main (fun _ => Ok (mkExtractedData [])) 0 "sk-test"
                       (Some (Unreadable EmptyFileError)) true)))
    = 1%nat.
Proof.
  apply (failure_gives_one_message (fun _ => Ok (mkExtractedData [])) 0
           "sk-test" (Unreadable EmptyFileError) EmptyFileError []).
  - discriminate.
  - apply extraction_fails. reflexivity.
Defined.

(** ** More on text extraction *)

Section ExtractionMore.

(** The loop started with some text gives that text followed by what it
    gives when started empty. *)
Lemma get_pdf_text_loop_acc (ps : list Page) (text : string) :
  get_pdf_text_loop ps text
  = result_map (String.append text) (get_pdf_text_loop ps "").
Proof.
  revert text. induction ps as [|p ps IH]; intros text; simpl.
  - by rewrite append_nil_r.
  - destruct (extract_text p) as [t|e]; simpl; [|done].
    rewrite (IH (text +:+ t +:+ LF)), (IH ("" +:+ t +:+ LF)).
    destruct (get_pdf_text_loop ps "") as [s|e]; simpl; [|done].
    by rewrite append_nil_l, !append_assoc.
Qed.

Lemma get_pdf_text_loop_app (ps1 ps2 : list Page) (text : string) :
  get_pdf_text_loop (ps1 ++ ps2) text
  = let? t := get_pdf_text_loop ps1 text in get_pdf_text_loop ps2 t.
Proof.
  revert text. induction ps1 as [|p ps1 IH]; intros text; simpl; [done|].
  destruct (extract_text p) as [t|e]; simpl; [|done]. apply IH.
Qed.

(** Every page adds at least its newline to the text. *)
Lemma get_pdf_text_loop_length (ps : list Page) (text s : string) :
  get_pdf_text_loop ps text = Ok s →
  (String.length text + length ps ≤ String.length s)%nat.
Proof.
  revert text. induction ps as [|p ps IH]; intros text Hs; simpl in *.
  - injection Hs as <-. lia.
  - destruct (extract_text p) as [t|e]; simpl in Hs; [|done].
    apply IH in Hs. rewrite !length_append in Hs. simpl in Hs. lia.
Qed.

End ExtractionMore.

(** X1: the text extracted from a document is empty exactly when the
    document has no pages: every page, with or without text of its own,
    leaves at least its newline. *)
Theorem get_pdf_text_empty_iff (ps : list Page) :
  get_pdf_text (Document ps) = Ok "" ↔ ps = [].
Proof.
  split.
  - unfold get_pdf_text; simpl. intros Hs.
    apply get_pdf_text_loop_length in Hs. simpl in Hs.
    destruct ps; [done | simpl in Hs; lia].
  - intros ->. reflexivity.
Qed.

(** X2: extracting a document made of the pages of one followed by the pages
    of another gives the text of the first followed by the text of the
    second, and fails where the first of the two extractions fails. *)
Theorem get_pdf_text_app (ps1 ps2 : list Page) :
  get_pdf_text (Document (ps1 ++ ps2))
  = let? t1 := get_pdf_text (Document ps1) in
    result_map (String.append t1) (get_pdf_text (Document ps2)).
Proof.
  unfold get_pdf_text; simpl. rewrite get_pdf_text_loop_app.
  destruct (get_pdf_text_loop ps1 "") as [t1|e]; simpl; [|done].
  apply get_pdf_text_loop_acc.
Qed.

(** ** More on the frame *)

Section FrameMore.

Lemma decode_record_row (r : DataPoint) : decode_row (record_row r) = Some r.
Proof. by destruct r. Qed.

Lemma decode_record_rows (rs : list DataPoint) :
  mapM decode_row (record_row <$> rs) = Some rs.
Proof.
  apply mapM_Some. induction rs as [|r rs IH]; [constructor|].
  rewrite fmap_cons. constructor; [apply decode_record_row | exact IH].
Qed.

Lemma data_frame_of (extracted : ExtractedData) :
  data (frame_of extracted) = record_row <$> entries extracted.
Proof.
  destruct (decide (entries extracted = [])) as [Hnil | Hne].
  - destruct extracted as [rs]. simpl in Hnil. by subst.
  - by rewrite frame_of_entries.
Qed.

End FrameMore.

(** X3: the frame the script builds has one row per record, in the order of
    the model's answer, and loses nothing: reading the rows as records again
    gives back the entries. *)
Theorem frame_of_round_trip (extracted : ExtractedData) :
  mapM decode_row (data (frame_of extracted)) = Some (entries extracted)
  ∧ length (data (frame_of extracted)) = length (entries extracted).
Proof.
  rewrite data_frame_of. split.
  - apply decode_record_rows.
  - apply length_fmap.
Qed.

(** ** More on the writer *)

Section WriterMore.

Implicit Types (ws : Worksheet) (cells : list ExcelCell).

(** Among cells at distinct positions, a cell whose write settles its own
    position is found there after all the writes. *)
Lemma table_write_all_own cells ws c x :
  NoDup (pos <$> cells) → c ∈ cells →
  (∀ ws', table (write ws' (row c) (col c) (val c) (style c)) !! pos c
          = Some x) →
  table (write_all ws cells) !! pos c = Some x.
Proof.
  revert ws. induction cells as [|c' cells IH]; intros ws Hnd Hin Hown.
  { by apply elem_of_nil in Hin. }
  rewrite fmap_cons in Hnd. apply NoDup_cons in Hnd as [Hfresh Hnd].
  rewrite write_all_cons.
  apply elem_of_cons in Hin as [->|Hin].
  - rewrite table_write_all_notin; [apply Hown|].
    apply Forall_forall. intros d Hd Heq. apply Hfresh.
    rewrite <- Heq. by apply list_elem_of_fmap_2.
  - by apply IH.
Qed.


Lemma table_write_formula ws r c tok fmt :
  token_kind tok = TFormula → r < xls_rowmax → c < xls_colmax →
  table (write ws r c tok fmt) !! (r, c)
  = Some (mkCell (cell_formula tok 0) fmt).
Proof.
  intros Hk Hr Hc. unfold write, write_formula. rewrite Hk.
  rewrite in_sheet_check by done. apply table_store_eq.
Qed.


(** A write to a row below the last row of a sheet stores nothing. *)
Lemma table_write_below_sheet ws r c tok fmt r' c' :
  xls_rowmax <= r' →
  table (write ws r c tok fmt) !! (r', c') = table ws !! (r', c').
Proof.
  intros Hout.
  destruct (decide ((r, c) = (r', c'))) as [Heq | Hne];
    [|by apply table_write_ne].
  injection Heq as -> ->.
  assert (Hcheck : check_dimensions r' c' = true).
  { unfold check_dimensions. apply orb_true_iff. left. by apply N.leb_le. }
  unfold write, write_blank, write_formula, write_url, write_string.
  rewrite Hcheck. by destruct (token_kind tok), fmt.
Qed.

Lemma table_write_all_below_sheet cells ws r' c' :
  xls_rowmax <= r' →
  table (write_all ws cells) !! (r', c') = table ws !! (r', c').
Proof.
  intros Hout. revert ws. induction cells as [|c cells IH]; intros ws; [done|].
  rewrite write_all_cons, IH. by apply table_write_below_sheet.
Qed.

(** The script's header loop is a run of writes over the header cells. *)
Lemma write_headers_cells_from ws (labels : list string) (g : nat → N) :
  fold_left (fun ws p => write ws 0 (fst p) (snd p) (Some header_format))
    (imap (fun col_num value => (g col_num, value)) labels) ws
  = write_all ws
      (imap (fun j l => mkExcelCell 0 (g j) l (Some header_format)) labels).
Proof.
  revert ws g. induction labels as [|l labels IH]; intros ws g; [done|].
  rewrite !imap_cons. simpl fold_left. rewrite write_all_cons. simpl.
  apply (IH _ (g ∘ S)).
Qed.

Lemma write_headers_cells ws (labels : list string) :
  write_headers ws labels = write_all ws (script_header_cells labels).
Proof. apply (write_headers_cells_from ws labels N.of_nat). Qed.


Lemma table_drawn (df : DataFrame) p :
  table (drawn df) !! p
  = table (write_all (write_all empty_worksheet (get_formatted_cells df))
             (script_header_cells (columns df))) !! p.
Proof.
  unfold drawn. rewrite !table_set_column. by rewrite write_headers_cells.
Qed.

Lemma col_info_set_column_A ws :
  col_info (set_column ws "A:A" 30 (Some body_format))
  = <[0 := (30, Some body_format)]> (col_info ws).
Proof. reflexivity. Qed.

Lemma col_info_set_column_B ws :
  col_info (set_column ws "B:B" 50 (Some body_format))
  = <[1 := (50, Some body_format)]> (col_info ws).
Proof. reflexivity. Qed.

Lemma col_info_set_column_C ws :
  col_info (set_column ws "C:C" 40 (Some body_format))
  = <[2 := (40, Some body_format)]> (col_info ws).
Proof. reflexivity. Qed.

Lemma col_info_drawn (df : DataFrame) : col_info (drawn df) = fixed_columns.
Proof.
  unfold drawn. cbv zeta.
  rewrite col_info_set_column_C, col_info_set_column_B, col_info_set_column_A.
  rewrite write_headers_cells, !col_info_write_all. reflexivity.
Qed.

End WriterMore.

(** ** More on the rendered sheet *)

Section SheetMore.

Implicit Types (ws : Worksheet) (rs : list DataPoint).

Lemma frame_of_fits (extracted : ExtractedData) :
  N.of_nat (length (entries extracted)) <= max_rows →
  fits (frame_of extracted).
Proof.
  intros Hrows. destruct (decide (entries extracted = [])) as [Hnil | Hne].
  - destruct extracted as [rs]. simpl in Hnil. subst.
    split; vm_compute; discriminate.
  - rewrite frame_of_entries by done.
    unfold fits, num_rows, num_cols, records_frame; simpl.
    rewrite length_map. unfold max_cols. lia.
Qed.

Lemma render_drawn now (extracted : ExtractedData) :
  N.of_nat (length (entries extracted)) <= max_rows →
  render now extracted
  = Ok (mkXlsxFile [("Extracted Data", drawn (frame_of extracted))] now).
Proof.
  intros Hrows. apply create_formatted_excel_fits. by apply frame_of_fits.
Qed.

Lemma rows_in_sheet_fit (n : N) : n < xls_rowmax → n <= max_rows.
Proof. unfold xls_rowmax, max_rows. lia. Qed.

(** In the cells pandas writes for the records, a cell whose write settles
    its own position is found there. *)
Lemma record_cells_own ws rs i r j x :
  rs !! i = Some r → j < 3 →
  (∀ ws', table (write ws' (1 + N.of_nat i) j (format_value (field j r)) None)
            !! (1 + N.of_nat i, j) = Some x) →
  table (write_all ws (record_cells rs)) !! (1 + N.of_nat i, j) = Some x.
Proof.
  intros Hr Hj Hown.
  unfold record_cells. rewrite !write_all_app.
  assert (j = 0 ∨ j = 1 ∨ j = 2) as [-> | [-> | ->]] by lia.
  - rewrite (table_write_all_notin (cells_of_column 2 _))
      by (by apply cells_of_column_other_col).
    rewrite (table_write_all_notin (cells_of_column 1 _))
      by (by apply cells_of_column_other_col).
    apply (table_write_all_own _ _
             (mkExcelCell (1 + N.of_nat i) 0 (format_value (field 0 r)) None));
      [apply cells_of_column_NoDup | | exact Hown].
    apply cells_of_column_lookup. by apply (field_lookup _ _ _ (field 0)).
  - rewrite (table_write_all_notin (cells_of_column 2 _))
      by (by apply cells_of_column_other_col).
    apply (table_write_all_own _ _
             (mkExcelCell (1 + N.of_nat i) 1 (format_value (field 1 r)) None));
      [apply cells_of_column_NoDup | | exact Hown].
    apply cells_of_column_lookup. by apply (field_lookup _ _ _ (field 1)).
  - apply (table_write_all_own _ _
             (mkExcelCell (1 + N.of_nat i) 2 (format_value (field 2 r)) None));
      [apply cells_of_column_NoDup | | exact Hown].
    apply cells_of_column_lookup. by apply (field_lookup _ _ _ (field 2)).
Qed.

Lemma drawn_field_own rs i r j x :
  rs !! i = Some r → j < 3 →
  (∀ ws', table (write ws' (1 + N.of_nat i) j (format_value (field j r)) None)
            !! (1 + N.of_nat i, j) = Some x) →
  table (drawn (records_frame rs)) !! (1 + N.of_nat i, j) = Some x.
Proof.
  intros Hr Hj Hown. rewrite table_drawn_body by lia.
  by eapply record_cells_own.
Qed.

Lemma record_row_in_sheet rs i r :
  rs !! i = Some r → N.of_nat (length rs) < xls_rowmax →
  1 + N.of_nat i < xls_rowmax.
Proof. intros Hr Hrows. apply lookup_lt_Some in Hr. lia. Qed.


Lemma table_drawn_empty_frame p : table (drawn (mkDataFrame [] [])) !! p = None.
Proof. rewrite table_drawn. reflexivity. Qed.


End SheetMore.



(** X5: the column settings do not depend on the frame: in every rendered
    file columns A, B and C have the widths 30, 50 and 40 and the body
    format, and no other column has a width or a format set. *)
Theorem column_widths_fixed now (df : DataFrame) :
  fits df →
  ∃ file ws,
    create_formatted_excel now df = Ok file
    ∧ the_sheet file = Some ws
    ∧ col_info ws !! 0 = Some (30, Some body_format)
    ∧ col_info ws !! 1 = Some (50, Some body_format)
    ∧ col_info ws !! 2 = Some (40, Some body_format)
    ∧ ∀ c, 3 <= c → col_info ws !! c = None.
Proof.
  intros Hfit.
  eexists _, _. split; [by apply create_formatted_excel_fits|].
  split; [apply the_sheet_drawn|].
  rewrite col_info_drawn. repeat split.
  intros c Hc. unfold fixed_columns.
  rewrite !lookup_insert_ne by lia. apply lookup_empty.
Qed.

Lemma column_widths_fixed_witness :
  ∃ file ws,
    create_formatted_excel 0
      (mkDataFrame ["a"; "b"; "c"; "d"] [[Some "1"; Some "2"; Some "3"; Some "4"]])
    = Ok file
    ∧ the_sheet file = Some ws
    ∧ col_info ws !! 0 = Some (30, Some body_format)
    ∧ col_info ws !! 1 = Some (50, Some body_format)
    ∧ col_info ws !! 2 = Some (40, Some body_format)
    ∧ ∀ c, 3 <= c → col_info ws !! c = None.
Proof.
  apply (column_widths_fixed 0
           (mkDataFrame ["a"; "b"; "c"; "d"]
              [[Some "1"; Some "2"; Some "3"; Some "4"]])).
  split; vm_compute; discriminate.
Defined.

(** X6: nothing is written outside the records' own cells: in the sheet
    rendered for K records every cell lies in rows 0 to K, inside the sheet,
    and in the first three columns. *)
Theorem cells_within_records now (extracted : ExtractedData) :
  N.of_nat (length (entries extracted)) <= max_rows →
  ∃ file ws,
    render now extracted = Ok file
    ∧ the_sheet file = Some ws
    ∧ ∀ r c, is_Some (table ws !! (r, c)) →
        r <= N.of_nat (length (entries extracted))
        ∧ r < xls_rowmax ∧ c < 3.
Proof.
  intros Hrows.
  eexists _, _. split; [by apply render_drawn|].
  split; [apply the_sheet_drawn|].
  intros r c Hsome.
  assert (Hin : r < xls_rowmax).
  { destruct (decide (r < xls_rowmax)) as [|Hout]; [done|].
    rewrite table_drawn, !table_write_all_below_sheet in Hsome by lia.
    by destruct Hsome. }
  destruct (decide (entries extracted = [])) as [Hnil | Hne].
  { destruct extracted as [rs]. simpl in Hnil. subst.
    change (frame_of (mkExtractedData [])) with (mkDataFrame [] []) in Hsome.
    rewrite table_drawn_empty_frame in Hsome. by destruct Hsome. }
  rewrite frame_of_entries in Hsome by done.
  destruct (decide (N.of_nat (length (entries extracted)) < r ∨ 3 <= c))
    as [Hout | Hok].
  { rewrite table_drawn_outside in Hsome by done. by destruct Hsome. }
  split; [|split]; [|done|]; apply N.nlt_ge || apply N.nle_gt; intros Hbad;
    apply Hok; auto.
Qed.

Lemma cells_within_records_witness :
  ∃ file ws,
    render 0 (mkExtractedData [mkDataPoint "Name" "Alice" None]) = Ok file
    ∧ the_sheet file = Some ws
    ∧ ∀ r c, is_Some (table ws !! (r, c)) →
        r <= N.of_nat 1 ∧ r < xls_rowmax ∧ c < 3.
Proof.
  apply (cells_within_records 0
           (mkExtractedData [mkDataPoint "Name" "Alice" None])).
  vm_compute. discriminate.
Defined.

(** X7: a key, value or comment that starts with [=] (or is wrapped as
    [{=...}]) is not stored as text: its cell becomes a formula cell holding
    that text, and no string is read back from it. *)
Theorem formula_text_stored_as_formula now (extracted : ExtractedData)
    (i : nat) (r : DataPoint) (j : N) :
  entries extracted !! i = Some r → j < 3 →
  N.of_nat (length (entries extracted)) < xls_rowmax →
  token_kind (format_value (field j r)) = TFormula →
  ∃ file ws,
    render now extracted = Ok file
    ∧ the_sheet file = Some ws
    ∧ table ws !! (1 + N.of_nat i, j)
      = Some (mkCell (cell_formula (format_value (field j r)) 0) None)
    ∧ cell_text ws (1 + N.of_nat i) j = None.
Proof.
  intros Hr Hj Hrows Hk.
  assert (Hne : entries extracted ≠ []).
  { intros Hnil. by rewrite Hnil in Hr. }
  assert (Hcell :
    table (drawn (records_frame (entries extracted))) !! (1 + N.of_nat i, j)
    = Some (mkCell (cell_formula (format_value (field j r)) 0) None)).
  { apply (drawn_field_own _ i r j); try done.
    intros ws'. apply table_write_formula; try done.
    - by eapply record_row_in_sheet.
    - unfold xls_colmax. lia. }
  eexists _, _. split; [by apply render_records|].
  split; [apply the_sheet_drawn|]. split; [exact Hcell|].
  unfold cell_text. by rewrite Hcell.
Qed.

Lemma formula_text_stored_as_formula_witness :
  ∃ file ws,
    render 0 (mkExtractedData [mkDataPoint "Total" "=SUM(A1:A9)" None])
    = Ok file
    ∧ the_sheet file = Some ws
    ∧ table ws !! (1 + N.of_nat 0, 1)
      = Some (mkCell (cell_formula "=SUM(A1:A9)" 0) None)
    ∧ cell_text ws (1 + N.of_nat 0) 1 = None.
Proof.
  apply (formula_text_stored_as_formula 0
           (mkExtractedData [mkDataPoint "Total" "=SUM(A1:A9)" None])
           0 (mkDataPoint "Total" "=SUM(A1:A9)" None) 1).
  - reflexivity.
  - vm_compute. reflexivity.
  - vm_compute. reflexivity.
  - reflexivity.
Defined.

(** X8: an empty key, value or comment (and a missing comment) leaves its
    cell out of the sheet altogether. *)
Theorem empty_text_leaves_no_cell now (extracted : ExtractedData)
    (i : nat) (r : DataPoint) (j : N) :
  entries extracted !! i = Some r → j < 3 →
  N.of_nat (length (entries extracted)) <= max_rows →
  format_value (field j r) = "" →
  ∃ file ws,
    render now extracted = Ok file
    ∧ the_sheet file = Some ws
    ∧ table ws !! (1 + N.of_nat i, j) = None.
Proof.
  intros Hr Hj Hrows Hblank.
  assert (Hne : entries extracted ≠ []).
  { intros Hnil. by rewrite Hnil in Hr. }
  eexists _, _. split; [by apply render_drawn|].
  split; [apply the_sheet_drawn|].
  rewrite frame_of_entries by done. by apply (drawn_field_blank _ i r j).
Qed.

Lemma empty_text_leaves_no_cell_witness :
  ∃ file ws,
    render 0 (mkExtractedData [mkDataPoint "Name" "" (Some "")]) = Ok file
    ∧ the_sheet file = Some ws
    ∧ table ws !! (1 + N.of_nat 0, 1) = None.
Proof.
  apply (empty_text_leaves_no_cell 0
           (mkExtractedData [mkDataPoint "Name" "" (Some "")])
           0 (mkDataPoint "Name" "" (Some "")) 1).
  - reflexivity.
  - vm_compute. reflexivity.
  - vm_compute. discriminate.
  - reflexivity.
Defined.



(** X10: pandas accepts a frame of 1048576 rows, but under the header row
    the sheet has room for 1048575: a record whose row would lie below the
    last row of the sheet is dropped without an error, the file is produced
    and nothing of that record can be read back. *)
Theorem record_below_sheet_dropped now (extracted : ExtractedData)
    (i : nat) (r : DataPoint) :
  entries extracted !! i = Some r →
  xls_rowmax <= 1 + N.of_nat i →
  N.of_nat (length (entries extracted)) <= max_rows →
  ∃ file ws,
    render now extracted = Ok file
    ∧ the_sheet file = Some ws
    ∧ (∀ c, table ws !! (1 + N.of_nat i, c) = None)
    ∧ read_row ws i = (None, None, None).
Proof.
  intros Hr Hbelow Hrows.
  assert (Hnone : ∀ c,
    table (drawn (frame_of extracted)) !! (1 + N.of_nat i, c) = None).
  { intros c. by rewrite table_drawn, !table_write_all_below_sheet. }
  eexists _, _. split; [by apply render_drawn|].
  split; [apply the_sheet_drawn|]. split; [exact Hnone|].
  unfold read_row. by rewrite !cell_text_absent.
Qed.

Lemma record_below_sheet_dropped_witness :
  ∃ file ws,
    render 0 (mkExtractedData
                (replicate (N.to_nat xls_rowmax) (mkDataPoint "k" "v" None)))
    = Ok file
    ∧ the_sheet file = Some ws
    ∧ (∀ c, table ws !! (1 + N.of_nat (Nat.pred (N.to_nat xls_rowmax)), c)
            = None)
    ∧ read_row ws (Nat.pred (N.to_nat xls_rowmax)) = (None, None, None).
Proof.
  apply (record_below_sheet_dropped 0
           (mkExtractedData
              (replicate (N.to_nat xls_rowmax) (mkDataPoint "k" "v" None)))
           (Nat.pred (N.to_nat xls_rowmax)) (mkDataPoint "k" "v" None)).
  - apply lookup_replicate_2. unfold xls_rowmax. lia.
  - unfold xls_rowmax. lia.
  - cbn [entries]. rewrite length_replicate. unfold xls_rowmax, max_rows. lia.
Defined.



(** ** More on the script *)

Section ScriptMore.

Lemma requests_show (w : Widget) (world : World) :
  requests (show w world) = requests world.
Proof. reflexivity. Qed.


Lemma page_process_button_ok provider now api_key uploaded_file text
    extracted file :
  get_pdf_text uploaded_file = Ok text →
  provider (the_request api_key text) = Ok extracted →
  render now extracted = Ok file →
  page (process_button provider now api_key uploaded_file start)
  = (preview extracted ++ [download_button file])%list.
Proof.
  intros Hpdf Hllm Hxl. unfold process_button, try_block, process_document.
  rewrite Hpdf. fold (the_request api_key text). rewrite Hllm. cbv zeta.
  fold (frame_of extracted). fold (render now extracted). by rewrite Hxl.
Qed.

End ScriptMore.



(** X13: nothing is sent to the provider while the button is not pressed,
    nor when the text of the uploaded file cannot be extracted: a failed
    extraction ends the run before the model call. *)
Theorem no_request_without_text (provider : Provider) (now : N)
    (api_key : string) (uploaded_file : UploadedFile) (clicked : bool) :
  clicked = false ∨ is_ok (get_pdf_text uploaded_file) = false →
  requests (main provider now api_key (Some uploaded_file) clicked) = [].
Proof.
  intros Hcase. unfold main.
  destruct (String.eqb api_key ""); [done|].
  destruct clicked; [|done].
  destruct Hcase as [Hc | Hpdf]; [done|].
  unfold process_button, try_block.
  by destruct (get_pdf_text uploaded_file).
Qed.

Lemma no_request_without_text_witness :
  requests (main (fun _ => Ok (mkExtractedData [])) 0 "sk-test"
              (Some Encrypted) true) = [].
Proof.
  apply (no_request_without_text (fun _ => Ok (mkExtractedData [])) 0
           "sk-test" Encrypted true).
  right. reflexivity.
Defined.

(** X14: when every stage succeeds the page shows, in this order, the
    success message, the preview heading, the frame built from the
    provider's answer, and one download button that carries the file
    rendered from that answer under the name Structured_Output.xlsx; no
    error message is shown. *)
Theorem success_offers_download (provider : Provider) (now : N)
    (api_key : string) (uploaded_file : UploadedFile) (text : string)
    (extracted : ExtractedData) (file : XlsxFile) :
  api_key ≠ "" →
  get_pdf_text uploaded_file = Ok text →
  provider (the_request api_key text) = Ok extracted →
  render now extracted = Ok file →
  page (main provider now api_key (Some uploaded_file) true)
  = [st_success "Processing Complete!"; st_subheader "Data Preview";
     st_dataframe (frame_of extracted);
     st_download_button "📥 Download Formatted Excel" file
       "Structured_Output.xlsx"
       "application/vnd.openxmlformats-officedocument.spreadsheetml.sheet"].
Proof.
  intros Hkey Hpdf Hllm Hxl. rewrite main_runs by done.
  by rewrite (page_process_button_ok _ _ _ _ text extracted file).
Qed.

Lemma success_offers_download_witness :
  page (main (fun _ => Ok (mkExtractedData [mkDataPoint "Name" "Alice" None]))
          7 "sk-test" (Some (Document [PageText "Name: Alice"])) true)
  = [st_success "Processing Complete!"; st_subheader "Data Preview";
     st_dataframe (frame_of (mkExtractedData [mkDataPoint "Name" "Alice" None]));
     st_download_button "📥 Download Formatted Excel"
       (mkXlsxFile
          [("Extracted Data",
            drawn (frame_of
                     (mkExtractedData [mkDataPoint "Name" "Alice" None])))] 7)
       "Structured_Output.xlsx"
       "application/vnd.openxmlformats-officedocument.spreadsheetml.sheet"].
Proof.
  apply (success_offers_download
           (fun _ => Ok (mkExtractedData [mkDataPoint "Name" "Alice" None]))
           7 "sk-test" (Document [PageText "Name: Alice"])
           ("Name: Alice" +:+ LF)
           (mkExtractedData [mkDataPoint "Name" "Alice" None])).
  - discriminate.
  - reflexivity.
  - reflexivity.
  - reflexivity.
Defined.

(** X15: a run ends in at most one outcome: whatever the inputs, the
    provider and the clock, the page never shows both an error message and a
    download button, and never more than one of either. *)
Theorem one_outcome_per_run (provider : Provider) (now : N)
    (api_key : string) (uploaded_file : option UploadedFile)
    (clicked : bool) :
  (length (filter (fun w => is_error w = true)
             (page (main provider now api_key uploaded_file clicked)))
   + length (filter (fun w => is_download w = true)
               (page (main provider now api_key uploaded_file clicked)))
   ≤ 1)%nat.
Proof.
  unfold main.
  destruct uploaded_file as [f|]; [|simpl; lia].
  destruct (String.eqb api_key ""); [simpl; lia|].
  destruct clicked; [|simpl; lia].
  unfold process_button, try_block, process_document.
  destruct (get_pdf_text f) as [text|e]; [|simpl; lia].
  destruct (provider _) as [extracted|e]; [|simpl; lia].
  cbv zeta.
  destruct (create_formatted_excel now _); simpl; lia.
Qed.
